(** * accounts/signals.py: the two signal receivers of the accounts app

    A shallow embedding of [send_welcome_email] and
    [notify_before_post_delete], of the registration performed by their
    [@receiver] decorators, and of the collaborators they call
    ([str.format], [send_mail], [print]).  Receivers are computations in a
    small monad that threads the database, records the externally visible
    effects of one invocation in chronological order, and propagates
    exceptions. *)

From Stdlib Require Import String Ascii List Bool ZArith.
From stdpp Require Import gmap strings.
Import ListNotations.

Local Open Scope string_scope.
Local Open Scope list_scope.

(** ** Exceptions *)

(** A raised exception: its class name and its message. *)
Inductive exn := Exception (cls msg : string).

(** How a call ends: with a value, or with an uncaught exception. *)
Inductive Outcome (A : Type) :=
| Return (a : A)
| Raise (e : exn).
Arguments Return {A} a.
Arguments Raise {A} e.

Definition map_outcome {A B} (f : A -> B) (o : Outcome A) : Outcome B :=
  match o with
  | Return a => Return (f a)
  | Raise e => Raise e
  end.

(** ** Text *)

Module Text.

(** The line feed character, which [print] writes after its argument. *)
Definition LF : ascii := ascii_of_nat 10.

(** [sub in s] on Python strings. *)
Fixpoint str_contains (sub s : string) : bool :=
  String.prefix sub s ||
  match s with
  | EmptyString => false
  | String _ s' => str_contains sub s'
  end.

(** ["\n" in s]. *)
Fixpoint has_newline (s : string) : bool :=
  match s with
  | EmptyString => false
  | String c s' => Ascii.eqb c LF || has_newline s'
  end.

(** [s.count("\n")]. *)
Fixpoint count_newlines (s : string) : nat :=
  match s with
  | EmptyString => 0
  | String c s' => (if Ascii.eqb c LF then 1 else 0) + count_newlines s'
  end.

(** The lines of a text stream: every line feed ends a line, and a
    non-empty unterminated tail is a line of its own. *)
Fixpoint split_lines (s : string) : list string :=
  match s with
  | EmptyString => []
  | String c s' =>
      if Ascii.eqb c LF then EmptyString :: split_lines s'
      else match split_lines s' with
           | [] => [String c EmptyString]
           | l :: ls => String c l :: ls
           end
  end.

(** [template.format( *args )] for templates built from literal text, the
    auto-numbered replacement field [{}] and the escapes [{{] and [}}].
    Python raises [IndexError] when the arguments run out and
    [ValueError] on a lone brace.  Numbered and named fields, conversions
    and format specs do not occur in this program; a template that uses
    them is refused. *)
Fixpoint str_format (template : string) (args : list string) : Outcome string :=
  match template with
  | EmptyString => Return EmptyString
  | String c rest =>
      if Ascii.eqb c "{" then
        match rest with
        | String d rest' =>
            if Ascii.eqb d "}" then
              match args with
              | a :: args' => map_outcome (String.append a) (str_format rest' args')
              | [] => Raise (Exception "IndexError"
                               "Replacement index 0 out of range for positional args tuple")
              end
            else if Ascii.eqb d "{" then
              map_outcome (String "{") (str_format rest' args)
            else Raise (Exception "NotImplementedError" "replacement field syntax")
        | EmptyString =>
            Raise (Exception "ValueError" "Single '{' encountered in format string")
        end
      else if Ascii.eqb c "}" then
        match rest with
        | String d rest' =>
            if Ascii.eqb d "}" then map_outcome (String "}") (str_format rest' args)
            else Raise (Exception "ValueError" "Single '}' encountered in format string")
        | EmptyString =>
            Raise (Exception "ValueError" "Single '}' encountered in format string")
        end
      else map_outcome (String c) (str_format rest args)
  end.

End Text.
Import Text.

(** ** Data model *)

(** [django.contrib.auth.models.User], with the columns of the framework's
    user table.  The receivers read [username] and [email] only. *)
Record User := {
  username : string;
  email : string;
  first_name : string;
  last_name : string;
  password : string;
  is_staff : bool;
  is_active : bool;
  is_superuser : bool
}.

(** Modelled from the spec: [Post] of accounts/models.py, which is imported
    by signals.py but is not part of the sources.  The spec gives one
    attribute, [title], a text; [post_fields] stands for whatever other
    columns the model declares. *)
Record Post := {
  title : string;
  post_fields : list (string * string)
}.

(** The model classes used as signal senders. *)
Inductive ModelClass := User_cls | Post_cls.

(** The extra keyword arguments a signal passes to its receivers
    ([**kwargs]); both receivers ignore them. *)
Definition Kwargs := list (string * string).

(** The keyword arguments of one call of [send_mail]. *)
Record SendMailCall := {
  subject : string;
  message : string;
  from_email : string;
  recipient_list : list string;
  fail_silently : bool
}.

(** Externally visible effects, in the order they happen. *)
Inductive event :=
| EvSendMail (call : SendMailCall)        (* send_mail( ... ) was called *)
| EvPrint (text : string)                 (* print(text) wrote text and a line feed *)
| EvRowDeleted (cls : ModelClass) (pk : Z). (* the row left its table *)

(** The persisted entities. *)
Record Db := {
  users : gmap Z User;
  posts : gmap Z Post
}.

(** ** The effect monad *)

(** What running a computation from a database yields: how it ended, the
    database it left, and the effects it performed. *)
Record Run (A : Type) := {
  outcome : Outcome A;
  db_after : Db;
  events : list event
}.
Arguments outcome {A} r.
Arguments db_after {A} r.
Arguments events {A} r.

Definition Eff (A : Type) : Type := Db -> Run A.

Definition ret {A} (a : A) : Eff A :=
  fun db => {| outcome := Return a; db_after := db; events := [] |}.

(** Sequencing: an exception in the first part skips the rest, as an
    uncaught Python exception does. *)
Definition bind {A B} (m : Eff A) (k : A -> Eff B) : Eff B :=
  fun db =>
    let r := m db in
    match outcome r with
    | Return a =>
        let r' := k a (db_after r) in
        {| outcome := outcome r';
           db_after := db_after r';
           events := events r ++ events r' |}
    | Raise e =>
        {| outcome := Raise e; db_after := db_after r; events := events r |}
    end.

Definition raise {A} (e : exn) : Eff A :=
  fun db => {| outcome := Raise e; db_after := db; events := [] |}.

Definition emit (ev : event) : Eff unit :=
  fun db => {| outcome := Return tt; db_after := db; events := [ev] |}.

Definition get_db : Eff Db :=
  fun db => {| outcome := Return db; db_after := db; events := [] |}.

Definition put_db (db' : Db) : Eff unit :=
  fun _ => {| outcome := Return tt; db_after := db'; events := [] |}.

Declare Scope eff_scope.
Delimit Scope eff_scope with eff.
Notation "x <- m ;; k" := (bind m (fun x => k))
  (at level 100, m at next level, right associativity) : eff_scope.
Notation "m ;; k" := (bind m (fun _ => k))
  (at level 100, right associativity) : eff_scope.
Local Open Scope eff_scope.

(** The outcome of a pure call, as a computation. *)
Definition lift {A} (o : Outcome A) : Eff A :=
  match o with
  | Return a => ret a
  | Raise e => raise e
  end.

(** [n] consecutive runs of [m], made by a caller that catches nothing. *)
Fixpoint times (n : nat) (m : Eff unit) : Eff unit :=
  match n with
  | O => ret tt
  | S n' => m;; times n' m
  end.

(** ** Views of an event list *)

Fixpoint mail_calls (evs : list event) : list SendMailCall :=
  match evs with
  | [] => []
  | EvSendMail c :: evs' => c :: mail_calls evs'
  | _ :: evs' => mail_calls evs'
  end.

Fixpoint printed (evs : list event) : list string :=
  match evs with
  | [] => []
  | EvPrint t :: evs' => t :: printed evs'
  | _ :: evs' => printed evs'
  end.

(** The characters that reached standard output. *)
Fixpoint stdout_text (evs : list event) : string :=
  match evs with
  | [] => EmptyString
  | EvPrint t :: evs' => t +:+ String LF EmptyString +:+ stdout_text evs'
  | _ :: evs' => stdout_text evs'
  end.

Definition stdout_lines (evs : list event) : list string :=
  split_lines (stdout_text evs).

(** ** External collaborators *)

(** [print(text)]: standard output is an unbounded text stream. *)
Definition print (text : string) : Eff unit := emit (EvPrint text).

Section Receivers.

(** The mail transport behind [send_mail]: for each call, either the
    message is handed over ([None]) or the transport raises. *)
Variable transport : SendMailCall -> option exn.

(** Modelled from the spec: [django.core.mail.send_mail], the framework's
    mail-sending capability with parameters subject, message, from_email,
    recipient_list and fail_silently, the flag that decides whether a
    transport error is suppressed or propagated.  The result is the
    number of messages handed over. *)
Definition send_mail (call : SendMailCall) : Eff Z :=
  emit (EvSendMail call);;
  match transport call with
  | None => ret 1%Z
  | Some e => if fail_silently call then ret 0%Z else raise e
  end.

(** ** The receivers (accounts/signals.py) *)

(** Send an email when a new user is created. *)
Definition send_welcome_email
    (sender : ModelClass) (instance : User) (created : bool)
    (kwargs : Kwargs) : Eff unit :=
  if created then
    msg <- lift (str_format "Thank you for registering, {}!" [username instance]);;
    send_mail {| subject := "Welcome to our site!";
                 message := msg;
                 from_email := "from@example.com";
                 recipient_list := [email instance];
                 fail_silently := false |};;
    ret tt
  else ret tt.

(** Log or notify before a Post is deleted. *)
Definition notify_before_post_delete
    (sender : ModelClass) (instance : Post) (kwargs : Kwargs) : Eff unit :=
  print ("Post titled '" +:+ title instance +:+ "' is about to be deleted.").

End Receivers.

(** ** Registration and dispatch *)

(** The signals of [django.db.models.signals] around saving and deleting. *)
Inductive Signal := pre_save | post_save | pre_delete | post_delete.

(** The receiver functions of this module, as first-class values. *)
Inductive Receiver := Recv_send_welcome_email | Recv_notify_before_post_delete.

(** One entry of the signal registry. *)
Record Connection := {
  conn_signal : Signal;
  conn_sender : ModelClass;
  conn_receiver : Receiver
}.

#[global] Instance ModelClass_eq_dec : EqDecision ModelClass.
Proof. solve_decision. Defined.
#[global] Instance Signal_eq_dec : EqDecision Signal.
Proof. solve_decision. Defined.

(** Modelled from the spec: the framework's signal registry, to which a
    callback is subscribed by sender and event kind.
    [@receiver(signal, sender=sender)] applied to [f] adds the connection
    after those already made. *)
Definition receiver (signal : Signal) (sender : ModelClass) (f : Receiver)
    (reg : list Connection) : list Connection :=
  reg ++ [{| conn_signal := signal; conn_sender := sender; conn_receiver := f |}].

(** The registry once accounts/signals.py has been imported: its two
    decorators, top to bottom. *)
Definition registry : list Connection :=
  receiver pre_delete Post_cls Recv_notify_before_post_delete
    (receiver post_save User_cls Recv_send_welcome_email []).

(** The receivers connected to [signal] for [sender], in connection order. *)
Definition live_receivers (signal : Signal) (sender : ModelClass)
    (reg : list Connection) : list Receiver :=
  conn_receiver <$>
    filter (fun c => conn_signal c = signal ∧ conn_sender c = sender) reg.

(** The object a signal is about. *)
Inductive Instance :=
| UserInstance (u : User)
| PostInstance (p : Post).

(** The named arguments of [Signal.send]. *)
Record Named := {
  named_instance : Instance;
  named_created : option bool;
  named_kwargs : Kwargs
}.

Section Dispatch.

Variable transport : SendMailCall -> option exn.

(** Calling a receiver with the arguments of a signal.  A receiver handed
    arguments of the wrong shape fails as the Python call would. *)
Definition call_receiver (f : Receiver) (sender : ModelClass) (named : Named)
    : Eff unit :=
  match f with
  | Recv_send_welcome_email =>
      match named_created named with
      | None =>
          raise (Exception "TypeError"
                   "missing 1 required positional argument: 'created'")
      | Some created =>
          match named_instance named with
          | UserInstance u =>
              send_welcome_email transport sender u created (named_kwargs named)
          | PostInstance _ =>
              if created
              then raise (Exception "AttributeError"
                            "'Post' object has no attribute 'username'")
              else ret tt
          end
      end
  | Recv_notify_before_post_delete =>
      match named_instance named with
      | PostInstance p => notify_before_post_delete sender p (named_kwargs named)
      | UserInstance _ =>
          raise (Exception "AttributeError"
                   "'User' object has no attribute 'title'")
      end
  end.

Fixpoint call_all (fs : list Receiver) (sender : ModelClass) (named : Named)
    : Eff unit :=
  match fs with
  | [] => ret tt
  | f :: fs' => call_receiver f sender named;; call_all fs' sender named
  end.

(** Modelled from the spec: [Signal.send] of the host framework, which
    runs the receivers subscribed for the sender and the event kind
    once each, synchronously, in the caller's context. *)
Definition send (signal : Signal) (sender : ModelClass) (named : Named)
    : Eff unit :=
  call_all (live_receivers signal sender registry) sender named.

(** Modelled from the spec: the deletion itself, performed by the framework:
    the row of the post leaves its table. *)
Definition remove_post_row (pk : Z) : Eff unit :=
  db <- get_db;;
  put_db {| users := users db; posts := delete pk (posts db) |};;
  emit (EvRowDeleted Post_cls pk).

(** Modelled from the spec: the framework's deletion of a post (the
    [delete()] that [Post] inherits), which is not part of the sources.
    The about-to-be-deleted receivers run immediately before the
    triggering operation, the deleted receivers immediately after. *)
Definition delete_post (pk : Z) (instance : Post) : Eff unit :=
  let named := {| named_instance := PostInstance instance;
                  named_created := None;
                  named_kwargs := [] |} in
  send pre_delete Post_cls named;;
  remove_post_row pk;;
  send post_delete Post_cls named.

End Dispatch.

(** ** Expected values and sample inputs *)

(** The call that [send_welcome_email] builds for a user. *)
Definition welcome_call (instance : User) : SendMailCall :=
  {| subject := "Welcome to our site!";
     message := "Thank you for registering, " +:+ username instance +:+ "!";
     from_email := "from@example.com";
     recipient_list := [email instance];
     fail_silently := false |}.

(** The line that [notify_before_post_delete] prints for a post. *)
Definition deletion_notice (instance : Post) : string :=
  "Post titled '" +:+ title instance +:+ "' is about to be deleted.".

(** A database without rows. *)
Definition empty_db : Db := {| users := ∅; posts := ∅ |}.

(** A transport that hands every message over. *)
Definition transport_up : SendMailCall -> option exn := fun _ => None.

(** A transport that refuses every message. *)
Definition transport_down : SendMailCall -> option exn :=
  fun _ => Some (Exception "SMTPException" "connection refused").

Definition alice : User :=
  {| username := "alice"; email := "alice@example.com";
     first_name := "Alice"; last_name := "Liddell"; password := "pbkdf2$1";
     is_staff := false; is_active := true; is_superuser := false |}.

(** The same username and email on an account that differs everywhere else. *)
Definition alice_admin : User :=
  {| username := "alice"; email := "alice@example.com";
     first_name := "A."; last_name := "L."; password := "pbkdf2$2";
     is_staff := true; is_active := false; is_superuser := true |}.

Definition hello_world : Post :=
  {| title := "Hello World"; post_fields := [] |}.

(** The same title on a post that differs in its other columns. *)
Definition hello_world_draft : Post :=
  {| title := "Hello World"; post_fields := [("status", "draft")] |}.

(** A post whose title spans two lines. *)
Definition two_line_post : Post :=
  {| title := "a" +:+ String LF "b"; post_fields := [] |}.

(** A database holding [hello_world] under primary key 7. *)
Definition blog_db : Db :=
  {| users := ∅; posts := {[ 7%Z := hello_world ]} |}.

(** * Properties *)

(** ** Text *)

Lemma append_nil_l (s : string) : EmptyString +:+ s = s.
Proof. reflexivity. Qed.

Lemma append_cons (c : ascii) (a s : string) :
  String c a +:+ s = String c (a +:+ s).
Proof. reflexivity. Qed.

Lemma prefix_append (a b : string) : String.prefix a (a +:+ b) = true.
Proof.
  induction a as [|c a IH].
  - rewrite append_nil_l. now destruct b.
  - rewrite append_cons. cbn [String.prefix].
    destruct (ascii_dec c c) as [_|Hne]; [exact IH | now destruct Hne].
Qed.

Lemma prefix_split (a s : string) :
  String.prefix a s = true -> exists b, s = a +:+ b.
Proof.
  revert s; induction a as [|c a IH]; intros s H.
  - now exists s.
  - destruct s as [|d s]; cbn [String.prefix] in H; [discriminate|].
    destruct (ascii_dec c d) as [->|_]; [|discriminate].
    destruct (IH _ H) as [b ->]. now exists b.
Qed.

Lemma str_contains_prefix (sub s : string) :
  String.prefix sub s = true -> str_contains sub s = true.
Proof. intros H. destruct s; cbn [str_contains]; rewrite H; reflexivity. Qed.

Lemma str_contains_append (a sub b : string) :
  str_contains sub (a +:+ sub +:+ b) = true.
Proof.
  induction a as [|c a IH].
  - rewrite append_nil_l. apply str_contains_prefix, prefix_append.
  - rewrite append_cons. cbn [str_contains]. rewrite IH. apply orb_true_r.
Qed.

(** The boolean test decides containment as a contiguous substring. *)
Lemma str_contains_spec (sub s : string) :
  str_contains sub s = true <-> exists a b, s = a +:+ sub +:+ b.
Proof.
  split.
  - induction s as [|c s IH]; cbn [str_contains]; intros H.
    + rewrite orb_false_r in H. destruct (prefix_split _ _ H) as [b Hb].
      exists EmptyString, b. exact Hb.
    + apply orb_true_iff in H as [H|H].
      * destruct (prefix_split _ _ H) as [b Hb]. exists EmptyString, b. exact Hb.
      * destruct (IH H) as (a & b & ->). now exists (String c a), b.
  - intros (a & b & ->). apply str_contains_append.
Qed.

Lemma has_newline_append (a b : string) :
  has_newline (a +:+ b) = has_newline a || has_newline b.
Proof.
  induction a as [|c a IH].
  - reflexivity.
  - rewrite append_cons. cbn [has_newline]. now rewrite IH, orb_assoc.
Qed.

(** A text without line feed, followed by one line feed, is one line. *)
Lemma split_lines_terminated (s : string) :
  has_newline s = false -> split_lines (s +:+ String LF EmptyString) = [s].
Proof.
  induction s as [|c s IH]; intros H.
  - reflexivity.
  - cbn [has_newline] in H. apply orb_false_iff in H as [Hc Hs].
    rewrite append_cons. cbn [split_lines]. rewrite Hc, (IH Hs). reflexivity.
Qed.

(** The template of the welcome message, instantiated. *)
Lemma str_format_welcome (name : string) :
  str_format "Thank you for registering, {}!" [name]
  = Return ("Thank you for registering, " +:+ name +:+ "!").
Proof. reflexivity. Qed.

(** ** Running the receivers *)

Section Runs.

Variable transport : SendMailCall -> option exn.

Lemma send_welcome_email_created sender instance kwargs db :
  send_welcome_email transport sender instance true kwargs db
  = {| outcome := match transport (welcome_call instance) with
                  | None => Return tt
                  | Some e => Raise e
                  end;
       db_after := db;
       events := [EvSendMail (welcome_call instance)] |}.
Proof.
  unfold send_welcome_email. rewrite str_format_welcome.
  unfold bind, lift, send_mail, emit, ret, raise. cbn.
  fold (welcome_call instance).
  destruct (transport (welcome_call instance)); reflexivity.
Qed.

Lemma send_welcome_email_not_created sender instance kwargs db :
  send_welcome_email transport sender instance false kwargs db
  = {| outcome := Return tt; db_after := db; events := [] |}.
Proof. reflexivity. Qed.

Lemma mail_calls_of_welcome sender instance created kwargs db :
  mail_calls (events (send_welcome_email transport sender instance created kwargs db))
  = if created then [welcome_call instance] else [].
Proof.
  destruct created.
  - now rewrite send_welcome_email_created.
  - now rewrite send_welcome_email_not_created.
Qed.

Lemma notify_before_post_delete_run sender instance kwargs db :
  notify_before_post_delete sender instance kwargs db
  = {| outcome := Return tt;
       db_after := db;
       events := [EvPrint (deletion_notice instance)] |}.
Proof. reflexivity. Qed.

Lemma pre_delete_receivers_of_post :
  live_receivers pre_delete Post_cls registry = [Recv_notify_before_post_delete].
Proof. reflexivity. Qed.

Lemma post_delete_receivers (sender : ModelClass) :
  live_receivers post_delete sender registry = [].
Proof. destruct sender; reflexivity. Qed.

Lemma send_pre_delete_run instance kwargs db :
  send transport pre_delete Post_cls
    {| named_instance := PostInstance instance;
       named_created := None;
       named_kwargs := kwargs |} db
  = {| outcome := Return tt;
       db_after := db;
       events := [EvPrint (deletion_notice instance)] |}.
Proof. unfold send. rewrite pre_delete_receivers_of_post. reflexivity. Qed.

Lemma delete_post_run pk instance db :
  delete_post transport pk instance db
  = {| outcome := Return tt;
       db_after := {| users := users db; posts := delete pk (posts db) |};
       events := [EvPrint (deletion_notice instance); EvRowDeleted Post_cls pk] |}.
Proof.
  unfold delete_post, bind. rewrite send_pre_delete_run.
  unfold send. rewrite post_delete_receivers. reflexivity.
Qed.

End Runs.

(** ** The welcome-notification receiver *)

(** C1: every invocation of [send_welcome_email] with [created = True]
    attempts exactly one [send_mail] call, whose recipient list is the
    single address [instance.email] and whose message contains
    [instance.username]. *)
Theorem welcome_created_one_call
    (transport : SendMailCall -> option exn)
    (sender : ModelClass) (instance : User) (kwargs : Kwargs) (db : Db) :
  exists call,
    mail_calls (events (send_welcome_email transport sender instance true kwargs db))
      = [call]
    /\ recipient_list call = [email instance]
    /\ str_contains (username instance) (message call) = true.
Proof.
  exists (welcome_call instance). rewrite send_welcome_email_created.
  repeat split. apply str_contains_append.
Qed.

(** C2: every invocation of [send_welcome_email] with [created = False]
    attempts no [send_mail] call; it performs no effect at all, leaves the
    database as it was and returns. *)
Theorem welcome_not_created_no_call
    (transport : SendMailCall -> option exn)
    (sender : ModelClass) (instance : User) (kwargs : Kwargs) (db : Db) :
  let r := send_welcome_email transport sender instance false kwargs db in
  mail_calls (events r) = []
  /\ events r = []
  /\ db_after r = db
  /\ outcome r = Return tt.
Proof. cbv zeta. rewrite send_welcome_email_not_created. repeat split. Qed.

(** C3: for a user named "alice" with email "alice@example.com", an
    invocation with [created = True] attempts one notification, with
    message exactly "Thank you for registering, alice!" and recipient
    exactly "alice@example.com". *)
Theorem welcome_alice_scenario
    (transport : SendMailCall -> option exn)
    (sender : ModelClass) (instance : User) (kwargs : Kwargs) (db : Db) :
  username instance = "alice" ->
  email instance = "alice@example.com" ->
  exists call,
    mail_calls (events (send_welcome_email transport sender instance true kwargs db))
      = [call]
    /\ message call = "Thank you for registering, alice!"
    /\ recipient_list call = ["alice@example.com"].
Proof.
  intros Hname Hmail. exists (welcome_call instance).
  rewrite send_welcome_email_created. unfold welcome_call; cbn.
  rewrite Hname, Hmail. repeat split.
Qed.

Lemma welcome_alice_scenario_witness :
  username alice = "alice"
  /\ email alice = "alice@example.com"
  /\ exists call,
       mail_calls (events (send_welcome_email transport_up User_cls alice true [] empty_db))
         = [call]
       /\ message call = "Thank you for registering, alice!"
       /\ recipient_list call = ["alice@example.com"].
Proof.
  split; [reflexivity|]. split; [reflexivity|].
  apply (welcome_alice_scenario transport_up User_cls alice [] empty_db);
    reflexivity.
Defined.

(** C5: every [send_mail] call made by [send_welcome_email] passes
    [fail_silently = False], and an error that the mail transport raises on
    such a call is not suppressed: the receiver ends by raising that very
    error to its caller. *)
Theorem welcome_transport_error_propagates
    (transport : SendMailCall -> option exn)
    (sender : ModelClass) (instance : User) (created : bool)
    (kwargs : Kwargs) (db : Db) :
  let r := send_welcome_email transport sender instance created kwargs db in
  Forall (fun call => fail_silently call = false) (mail_calls (events r))
  /\ forall call e,
       In call (mail_calls (events r)) ->
       transport call = Some e ->
       outcome r = Raise e.
Proof.
  cbv zeta. rewrite mail_calls_of_welcome. destruct created.
  - split.
    + repeat constructor.
    + intros call e [<-|[]] He. rewrite send_welcome_email_created.
      cbn. now rewrite He.
  - split; [constructor | intros call e []].
Qed.

Lemma welcome_transport_error_propagates_witness :
  In (welcome_call alice)
     (mail_calls (events (send_welcome_email transport_down User_cls alice true [] empty_db)))
  /\ transport_down (welcome_call alice)
     = Some (Exception "SMTPException" "connection refused")
  /\ outcome (send_welcome_email transport_down User_cls alice true [] empty_db)
     = Raise (Exception "SMTPException" "connection refused").
Proof.
  split; [left; reflexivity|]. split; [reflexivity|].
  apply (proj2 (welcome_transport_error_propagates
                  transport_down User_cls alice true [] empty_db)
           (welcome_call alice));
    [left; reflexivity | reflexivity].
Defined.

(** C6: every [send_mail] call made by [send_welcome_email] has the fixed
    sender 'from@example.com', whatever the input, and a recipient list
    that is exactly the one-element list holding the user's email. *)
Theorem welcome_sender_and_recipient
    (transport : SendMailCall -> option exn)
    (sender : ModelClass) (instance : User) (created : bool)
    (kwargs : Kwargs) (db : Db) :
  Forall (fun call => from_email call = "from@example.com"
                      /\ recipient_list call = [email instance])
    (mail_calls (events (send_welcome_email transport sender instance created kwargs db))).
Proof.
  rewrite mail_calls_of_welcome. destruct created; repeat constructor.
Qed.

(** C9: every notification attempted by [send_welcome_email] has the
    subject exactly "Welcome to our site!". *)
Theorem welcome_subject
    (transport : SendMailCall -> option exn)
    (sender : ModelClass) (instance : User) (created : bool)
    (kwargs : Kwargs) (db : Db) :
  Forall (fun call => subject call = "Welcome to our site!")
    (mail_calls (events (send_welcome_email transport sender instance created kwargs db))).
Proof.
  rewrite mail_calls_of_welcome. destruct created; repeat constructor.
Qed.

(** C10: the [send_mail] calls of [send_welcome_email] are a function of
    the created flag, the username and the email alone: two invocations
    that agree on these three make the same calls (subject, message,
    sender, recipients and fail_silently alike), whatever the other fields
    of the users, the senders, the keyword arguments, the databases and the
    transports. *)
Theorem welcome_depends_on_three_inputs
    (transport1 transport2 : SendMailCall -> option exn)
    (sender1 sender2 : ModelClass) (instance1 instance2 : User)
    (created1 created2 : bool) (kwargs1 kwargs2 : Kwargs) (db1 db2 : Db) :
  created1 = created2 ->
  username instance1 = username instance2 ->
  email instance1 = email instance2 ->
  mail_calls (events (send_welcome_email transport1 sender1 instance1 created1 kwargs1 db1))
  = mail_calls (events (send_welcome_email transport2 sender2 instance2 created2 kwargs2 db2)).
Proof.
  intros -> Hname Hmail. rewrite !mail_calls_of_welcome.
  unfold welcome_call. now rewrite Hname, Hmail.
Qed.

Lemma welcome_depends_on_three_inputs_witness :
  true = true
  /\ username alice = username alice_admin
  /\ email alice = email alice_admin
  /\ alice <> alice_admin
  /\ mail_calls (events (send_welcome_email transport_up User_cls alice true [] empty_db))
     = mail_calls (events (send_welcome_email transport_down Post_cls alice_admin true
                             [("using", "default")] blog_db)).
Proof.
  split; [reflexivity|]. split; [reflexivity|]. split; [reflexivity|].
  split; [discriminate|].
  apply (welcome_depends_on_three_inputs transport_up transport_down
           User_cls Post_cls alice alice_admin true true
           [] [("using", "default")] empty_db blog_db);
    reflexivity.
Defined.

(** ** The pre-deletion notice receiver *)

(** C4, as stated, fails: for a post whose title holds a line feed the
    output of [notify_before_post_delete] is two lines, so there is no
    single emitted line, let alone one that contains the title. *)
Lemma notice_title_with_line_feed :
  ~ exists line,
      stdout_lines (events (notify_before_post_delete Post_cls two_line_post [] empty_db))
        = [line]
      /\ str_contains (title two_line_post) line = true.
Proof. intros (line & Hlines & _). vm_compute in Hlines. discriminate. Qed.

(** C4, amended: every invocation of [notify_before_post_delete] makes
    exactly one [print] call, whose text "Post titled '<title>' is about to
    be deleted." contains the entity's title; whenever the title holds no
    line feed, that text is the one line emitted on standard output; in
    particular, for a post titled "Hello World" the emitted line is
    "Post titled 'Hello World' is about to be deleted.". *)
Theorem notice_one_print_with_title
    (sender : ModelClass) (instance : Post) (kwargs : Kwargs) (db : Db) :
  let r := notify_before_post_delete sender instance kwargs db in
  let text := "Post titled '" +:+ title instance +:+ "' is about to be deleted." in
  printed (events r) = [text]
  /\ str_contains (title instance) text = true
  /\ (has_newline (title instance) = false -> stdout_lines (events r) = [text])
  /\ (title instance = "Hello World" ->
      stdout_lines (events r)
      = ["Post titled 'Hello World' is about to be deleted."]).
Proof.
  cbv zeta. rewrite notify_before_post_delete_run.
  split; [reflexivity|]. split; [apply str_contains_append|].
  assert (Hone : has_newline (title instance) = false ->
                 stdout_lines [EvPrint (deletion_notice instance)]
                 = [deletion_notice instance]).
  { intros Hnl. unfold stdout_lines. cbn [stdout_text].
    replace (String LF EmptyString +:+ EmptyString) with (String LF EmptyString)
      by reflexivity.
    apply split_lines_terminated. unfold deletion_notice.
    now rewrite !has_newline_append, Hnl. }
  split; [exact Hone|].
  intros Htitle. cbn [events]. rewrite Hone.
  - unfold deletion_notice. now rewrite Htitle.
  - now rewrite Htitle.
Qed.

Lemma notice_one_print_with_title_witness :
  has_newline (title hello_world) = false
  /\ title hello_world = "Hello World"
  /\ stdout_lines (events (notify_before_post_delete Post_cls hello_world [] blog_db))
     = [deletion_notice hello_world]
  /\ stdout_lines (events (notify_before_post_delete Post_cls hello_world [] blog_db))
     = ["Post titled 'Hello World' is about to be deleted."].
Proof.
  destruct (notice_one_print_with_title Post_cls hello_world [] blog_db)
    as (_ & _ & Hline & Hhello).
  split; [reflexivity|]. split; [reflexivity|].
  split; [exact (Hline eq_refl) | exact (Hhello eq_refl)].
Defined.

(** C7: [notify_before_post_delete] does nothing but print its one notice:
    for every entity it returns without raising, leaves every stored
    entity as it was, calls [send_mail] not once, and its only effect is
    the [print] of the notice. *)
Theorem notice_frame
    (sender : ModelClass) (instance : Post) (kwargs : Kwargs) (db : Db) :
  let r := notify_before_post_delete sender instance kwargs db in
  outcome r = Return tt
  /\ db_after r = db
  /\ mail_calls (events r) = []
  /\ events r
     = [EvPrint ("Post titled '" +:+ title instance +:+ "' is about to be deleted.")].
Proof. cbv zeta. rewrite notify_before_post_delete_run. repeat split. Qed.

(** C8: [notify_before_post_delete] is connected to the pre-delete signal
    of [Post] and to no post-delete signal; so when a stored post is
    deleted, the notice is printed while the row is still in its table,
    strictly before the removal, and nothing is printed afterwards. *)
Theorem notice_precedes_deletion
    (transport : SendMailCall -> option exn)
    (db : Db) (pk : Z) (instance : Post) :
  posts db !! pk = Some instance ->
  let named := {| named_instance := PostInstance instance;
                  named_created := None;
                  named_kwargs := [] |} in
  let before := send transport pre_delete Post_cls named db in
  let r := delete_post transport pk instance db in
  let text := "Post titled '" +:+ title instance +:+ "' is about to be deleted." in
  live_receivers pre_delete Post_cls registry = [Recv_notify_before_post_delete]
  /\ (forall sender,
        Recv_notify_before_post_delete ∉ live_receivers post_delete sender registry)
  /\ printed (events before) = [text]
  /\ posts (db_after before) !! pk = Some instance
  /\ events r = [EvPrint text; EvRowDeleted Post_cls pk]
  /\ posts (db_after r) !! pk = None.
Proof.
  intros Hrow. cbv zeta. rewrite send_pre_delete_run, delete_post_run.
  split; [reflexivity|].
  split; [intros sender; rewrite post_delete_receivers; apply not_elem_of_nil|].
  split; [reflexivity|]. split; [exact Hrow|]. split; [reflexivity|].
  cbn [db_after posts]. apply lookup_delete_eq.
Qed.

Lemma notice_precedes_deletion_witness :
  posts blog_db !! 7%Z = Some hello_world
  /\ events (delete_post transport_up 7 hello_world blog_db)
     = [EvPrint "Post titled 'Hello World' is about to be deleted.";
        EvRowDeleted Post_cls 7]
  /\ posts (db_after (delete_post transport_up 7 hello_world blog_db)) !! 7%Z = None.
Proof.
  assert (Hrow : posts blog_db !! 7%Z = Some hello_world) by reflexivity.
  split; [exact Hrow|].
  destruct (notice_precedes_deletion transport_up blog_db 7 hello_world Hrow)
    as (_ & _ & _ & _ & Hevents & Hgone).
  split; [exact Hevents | exact Hgone].
Defined.

(** * Further properties of the receivers *)

(** ** Text *)

Lemma length_append (a b : string) :
  String.length (a +:+ b) = String.length a + String.length b.
Proof.
  induction a as [|c a IH]; [reflexivity|].
  rewrite append_cons. cbn [String.length]. now rewrite IH.
Qed.

Lemma append_cancel_l (a s t : string) : a +:+ s = a +:+ t -> s = t.
Proof.
  induction a as [|c a IH]; [now rewrite !append_nil_l|].
  rewrite !append_cons. intros H. injection H as H. exact (IH H).
Qed.

Lemma append_cancel_r (b s t : string) : s +:+ b = t +:+ b -> s = t.
Proof.
  revert t; induction s as [|c s IH]; intros [|d t] H.
  - reflexivity.
  - apply (f_equal String.length) in H.
    rewrite append_nil_l, append_cons in H. cbn [String.length] in H.
    rewrite length_append in H. lia.
  - apply (f_equal String.length) in H.
    rewrite append_nil_l, append_cons in H. cbn [String.length] in H.
    rewrite length_append in H. lia.
  - rewrite !append_cons in H. injection H as -> H. now rewrite (IH _ H).
Qed.

Lemma count_newlines_append (a b : string) :
  count_newlines (a +:+ b) = count_newlines a + count_newlines b.
Proof.
  induction a as [|c a IH]; [reflexivity|].
  rewrite append_cons. cbn [count_newlines]. rewrite IH. lia.
Qed.

Lemma count_newlines_zero (s : string) :
  count_newlines s = 0 <-> has_newline s = false.
Proof.
  induction s as [|c s IH]; cbn [count_newlines has_newline]; [easy|].
  destruct (Ascii.eqb c LF); cbn [orb]; [split; [lia | discriminate]|].
  exact IH.
Qed.

(** A text followed by one line feed has one line more than it has line
    feeds. *)
Lemma split_lines_terminated_length (s : string) :
  List.length (split_lines (s +:+ String LF EmptyString)) = S (count_newlines s).
Proof.
  induction s as [|c s IH]; [reflexivity|].
  rewrite append_cons. cbn [split_lines count_newlines].
  destruct (Ascii.eqb c LF).
  - cbn [List.length]. now rewrite IH.
  - destruct (split_lines (s +:+ String LF EmptyString)) as [|l ls];
      [discriminate IH | exact IH].
Qed.

Lemma stdout_lines_single (text : string) :
  stdout_lines [EvPrint text] = split_lines (text +:+ String LF EmptyString).
Proof. reflexivity. Qed.

(** ** The welcome-notification receiver, continued *)

(** X1: [send_welcome_email] returns normally exactly when the transport
    accepted every [send_mail] call it made; and whether it returns or
    raises, it leaves the stored entities as they were and prints
    nothing. *)
Theorem welcome_returns_iff_accepted
    (transport : SendMailCall -> option exn)
    (sender : ModelClass) (instance : User) (created : bool)
    (kwargs : Kwargs) (db : Db) :
  let r := send_welcome_email transport sender instance created kwargs db in
  db_after r = db
  /\ printed (events r) = []
  /\ (outcome r = Return tt
      <-> Forall (fun call => transport call = None) (mail_calls (events r))).
Proof.
  cbv zeta. destruct created.
  - rewrite send_welcome_email_created. cbn.
    split; [reflexivity|]. split; [reflexivity|].
    destruct (transport (welcome_call instance)) as [e|] eqn:Ht; split.
    + discriminate.
    + intros H. apply Forall_inv in H. congruence.
    + intros _. now constructor.
    + reflexivity.
  - rewrite send_welcome_email_not_created. cbn.
    split; [reflexivity|]. split; [reflexivity|]. split; [constructor | reflexivity].
Qed.

(** X2: for every username, the message of the welcome mail is the
    username set verbatim between "Thank you for registering, " and "!":
    formatting never fails, and braces inside the username are not read as
    replacement fields. *)
Theorem welcome_message_verbatim
    (transport : SendMailCall -> option exn)
    (sender : ModelClass) (instance : User) (kwargs : Kwargs) (db : Db) :
  message <$> mail_calls (events (send_welcome_email transport sender instance true kwargs db))
  = ["Thank you for registering, " +:+ username instance +:+ "!"].
Proof. now rewrite send_welcome_email_created. Qed.

(** X3: the welcome mail identifies its user: two invocations with
    [created = True] that make the same [send_mail] calls were given users
    with the same username and the same email. *)
Theorem welcome_calls_identify_user
    (transport1 transport2 : SendMailCall -> option exn)
    (sender1 sender2 : ModelClass) (instance1 instance2 : User)
    (kwargs1 kwargs2 : Kwargs) (db1 db2 : Db) :
  mail_calls (events (send_welcome_email transport1 sender1 instance1 true kwargs1 db1))
  = mail_calls (events (send_welcome_email transport2 sender2 instance2 true kwargs2 db2)) ->
  username instance1 = username instance2 /\ email instance1 = email instance2.
Proof.
  rewrite !send_welcome_email_created. cbn [events mail_calls].
  unfold welcome_call. intros H. injection H as Hmsg Hmail. split.
  - apply append_cancel_l in Hmsg. now apply append_cancel_r in Hmsg.
  - exact Hmail.
Qed.

Lemma welcome_calls_identify_user_witness :
  mail_calls (events (send_welcome_email transport_up User_cls alice true [] empty_db))
  = mail_calls (events (send_welcome_email transport_down User_cls alice_admin true [] blog_db))
  /\ username alice = username alice_admin
  /\ email alice = email alice_admin.
Proof.
  assert (Hcalls :
    mail_calls (events (send_welcome_email transport_up User_cls alice true [] empty_db))
    = mail_calls (events (send_welcome_email transport_down User_cls alice_admin true
                            [] blog_db))) by reflexivity.
  split; [exact Hcalls|].
  exact (welcome_calls_identify_user transport_up transport_down User_cls User_cls
           alice alice_admin [] [] empty_db blog_db Hcalls).
Defined.

(** ** Registration, continued *)

(** X4: the decorator of [send_welcome_email] subscribes it to [post_save]
    of [User], alone: dispatching that signal for a user runs
    [send_welcome_email] once with the signal's sender, instance, created
    flag and keyword arguments, and nothing else. *)
Theorem post_save_user_runs_welcome
    (transport : SendMailCall -> option exn)
    (instance : User) (created : bool) (kwargs : Kwargs) (db : Db) :
  send transport post_save User_cls
    {| named_instance := UserInstance instance;
       named_created := Some created;
       named_kwargs := kwargs |} db
  = send_welcome_email transport User_cls instance created kwargs db.
Proof.
  unfold send.
  change (live_receivers post_save User_cls registry) with [Recv_send_welcome_email].
  cbn [call_all call_receiver named_instance named_created named_kwargs].
  unfold bind. destruct created.
  - rewrite send_welcome_email_created. cbn.
    destruct (transport (welcome_call instance)); reflexivity.
  - rewrite send_welcome_email_not_created. reflexivity.
Qed.

(** X5: no other signal reaches the receivers of this module: for a pair
    of signal and sender other than [post_save] of [User] and [pre_delete]
    of [Post], no receiver is subscribed, and dispatching sends no mail,
    prints nothing, changes no entity and returns, whatever the arguments
    and the state of the transport. *)
Theorem other_signals_run_nothing
    (transport : SendMailCall -> option exn)
    (signal : Signal) (sender : ModelClass) (named : Named) (db : Db) :
  (signal, sender) <> (post_save, User_cls) ->
  (signal, sender) <> (pre_delete, Post_cls) ->
  live_receivers signal sender registry = []
  /\ send transport signal sender named db
     = {| outcome := Return tt; db_after := db; events := [] |}.
Proof.
  intros Hsave Hdelete. unfold send.
  destruct signal, sender; try (now destruct Hsave); try (now destruct Hdelete);
    split; reflexivity.
Qed.

Lemma other_signals_run_nothing_witness :
  (post_save, Post_cls) <> (post_save, User_cls)
  /\ (post_save, Post_cls) <> (pre_delete, Post_cls)
  /\ send transport_down post_save Post_cls
       {| named_instance := PostInstance hello_world;
          named_created := Some true;
          named_kwargs := [] |} blog_db
     = {| outcome := Return tt; db_after := blog_db; events := [] |}.
Proof.
  assert (Hsave : (post_save, Post_cls) <> (post_save, User_cls)) by discriminate.
  assert (Hdelete : (post_save, Post_cls) <> (pre_delete, Post_cls)) by discriminate.
  split; [exact Hsave|]. split; [exact Hdelete|].
  exact (proj2 (other_signals_run_nothing transport_down post_save Post_cls
                  {| named_instance := PostInstance hello_world;
                     named_created := Some true;
                     named_kwargs := [] |} blog_db Hsave Hdelete)).
Defined.

Lemma send_post_save_created_run
    (transport : SendMailCall -> option exn)
    (instance : User) (kwargs : Kwargs) (db : Db) :
  send transport post_save User_cls
    {| named_instance := UserInstance instance;
       named_created := Some true;
       named_kwargs := kwargs |} db
  = {| outcome := match transport (welcome_call instance) with
                  | None => Return tt
                  | Some e => Raise e
                  end;
       db_after := db;
       events := [EvSendMail (welcome_call instance)] |}.
Proof.
  unfold send.
  change (live_receivers post_save User_cls registry) with [Recv_send_welcome_email].
  cbn [call_all call_receiver named_instance named_created named_kwargs].
  unfold bind. rewrite send_welcome_email_created. cbn.
  destruct (transport (welcome_call instance)); reflexivity.
Qed.

(** X6: nothing deduplicates the welcome mail: when the creation signal
    fires [n] times in a row for one user and the transport accepts the
    mail, [n] identical [send_mail] calls are made. *)
Theorem welcome_not_deduplicated
    (transport : SendMailCall -> option exn)
    (instance : User) (kwargs : Kwargs) (db : Db) (n : nat) :
  transport (welcome_call instance) = None ->
  let fire := send transport post_save User_cls
                {| named_instance := UserInstance instance;
                   named_created := Some true;
                   named_kwargs := kwargs |} in
  let r := times n fire db in
  outcome r = Return tt
  /\ db_after r = db
  /\ events r = repeat (EvSendMail (welcome_call instance)) n
  /\ List.length (mail_calls (events r)) = n.
Proof.
  intros Hup. cbv zeta.
  assert (Hrun : times n
            (send transport post_save User_cls
               {| named_instance := UserInstance instance;
                  named_created := Some true;
                  named_kwargs := kwargs |}) db
          = {| outcome := Return tt; db_after := db;
               events := repeat (EvSendMail (welcome_call instance)) n |}).
  { induction n as [|n IH]; [reflexivity|].
    cbn [times]. unfold bind.
    rewrite send_post_save_created_run, Hup.
    cbn [outcome db_after events]. rewrite IH. reflexivity. }
  rewrite Hrun. cbn [outcome db_after events].
  split; [reflexivity|]. split; [reflexivity|]. split; [reflexivity|].
  clear Hrun. induction n as [|n IH]; [reflexivity|].
  cbn [repeat mail_calls List.length]. now rewrite IH.
Qed.

Lemma welcome_not_deduplicated_witness :
  transport_up (welcome_call alice) = None
  /\ events (times 3
               (send transport_up post_save User_cls
                  {| named_instance := UserInstance alice;
                     named_created := Some true;
                     named_kwargs := [] |}) empty_db)
     = [EvSendMail (welcome_call alice);
        EvSendMail (welcome_call alice);
        EvSendMail (welcome_call alice)].
Proof.
  assert (Hup : transport_up (welcome_call alice) = None) by reflexivity.
  split; [exact Hup|].
  exact (proj1 (proj2 (proj2
           (welcome_not_deduplicated transport_up alice [] empty_db 3 Hup)))).
Defined.

(** ** The pre-deletion notice receiver, continued *)

(** X7: the output of [notify_before_post_delete] has one line more than
    the title has line feeds; so it is a single line exactly when the title
    holds no line feed. *)
Theorem notice_line_count
    (sender : ModelClass) (instance : Post) (kwargs : Kwargs) (db : Db) :
  let r := notify_before_post_delete sender instance kwargs db in
  List.length (stdout_lines (events r)) = S (count_newlines (title instance))
  /\ (List.length (stdout_lines (events r)) = 1
      <-> has_newline (title instance) = false).
Proof.
  cbv zeta. rewrite notify_before_post_delete_run. cbn [events].
  rewrite stdout_lines_single, split_lines_terminated_length.
  unfold deletion_notice. rewrite !count_newlines_append.
  change (count_newlines "Post titled '") with 0.
  change (count_newlines "' is about to be deleted.") with 0.
  rewrite Nat.add_0_l, Nat.add_0_r. split; [reflexivity|].
  rewrite <- count_newlines_zero. lia.
Qed.

(** X8: the notice identifies the title: two invocations of
    [notify_before_post_delete] that print the same text were given posts
    with the same title. *)
Theorem notice_identifies_title
    (sender1 sender2 : ModelClass) (instance1 instance2 : Post)
    (kwargs1 kwargs2 : Kwargs) (db1 db2 : Db) :
  printed (events (notify_before_post_delete sender1 instance1 kwargs1 db1))
  = printed (events (notify_before_post_delete sender2 instance2 kwargs2 db2)) ->
  title instance1 = title instance2.
Proof.
  rewrite !notify_before_post_delete_run. cbn [events printed].
  unfold deletion_notice. intros H. injection H as H.
  apply append_cancel_l in H. now apply append_cancel_r in H.
Qed.

Lemma notice_identifies_title_witness :
  printed (events (notify_before_post_delete Post_cls hello_world [] empty_db))
  = printed (events (notify_before_post_delete Post_cls hello_world_draft [] blog_db))
  /\ hello_world <> hello_world_draft
  /\ title hello_world = title hello_world_draft.
Proof.
  assert (Hsame :
    printed (events (notify_before_post_delete Post_cls hello_world [] empty_db))
    = printed (events (notify_before_post_delete Post_cls hello_world_draft [] blog_db)))
    by reflexivity.
  split; [exact Hsame|]. split; [discriminate|].
  exact (notice_identifies_title Post_cls Post_cls hello_world hello_world_draft
           [] [] empty_db blog_db Hsame).
Defined.
